(** * The m7s engine core: Stream state machine and H.265 track ingress

    A shallow embedding of [stream.go] (the per-stream state machine, its
    [action] function and the dispatch of the serial loop [run]) and of
    [track/h265.go] (the H.265 ingress: [WriteSliceBytes], [WriteAVCC],
    [WriteRTPFrame], [CompleteRTP]), with the properties that the
    specification states about them.

    Go values are modelled as follows.  A [byte] is a [Z] in [0, 256); a
    [[]byte] is a [list Z]; a [time.Duration] and a [time.Time] are [Z]
    (nanoseconds).  A Go struct is a record, an enumeration an inductive
    type, a [map] a [gmap] (or a list where the iteration order decides
    something).  Mutation is explicit state passing in a small state monad
    whose result can be a run-time panic; everything the code sends out
    (event bus, OnEvent callbacks, promises, the logger) is appended to a
    trace of effects. *)

From Stdlib Require Import Ascii.
From stdpp Require Import base gmap strings list fin_maps.

Local Open Scope Z_scope.

(** ** Results of a Go call: a value, or a run-time panic *)

Inductive Res (A : Type) : Type :=
| Ok (a : A)
| Panic.
Arguments Ok {A} a.
Arguments Panic {A}.

Definition M (W A : Type) : Type := W -> Res (A * W).

Definition ret {W A} (a : A) : M W A := fun w => Ok (a, w).

Definition bind {W A B} (m : M W A) (k : A -> M W B) : M W B :=
  fun w => match m w with
           | Ok (a, w') => k a w'
           | Panic => Panic
           end.

Definition panic {W A} : M W A := fun _ => Panic.

Notation "x <- m ;; k" := (bind m (fun x => k))
  (at level 100, m at next level, k at level 200, right associativity, only parsing).
Notation "m ;; k" := (bind m (fun _ => k))
  (at level 100, k at level 200, right associativity, only parsing).

(** [time.Millisecond] and [time.Second], in nanoseconds. *)
Definition Millisecond : Z := 1000000.
Definition Second : Z := 1000000000.

(** The levels of the structured logger. *)
Inductive Level : Set := LDebug | LInfo | LWarn | LError.

(** ** stream.go *)

Module Engine.

Inductive StreamState : Set :=
| STATE_WAITPUBLISH
| STATE_PUBLISHING
| STATE_WAITCLOSE
| STATE_CLOSED.

Inductive StreamAction : Set :=
| ACTION_PUBLISH
| ACTION_TIMEOUT
| ACTION_PUBLISHLOST
| ACTION_CLOSE
| ACTION_LASTLEAVE
| ACTION_FIRSTENTER.

#[global] Instance StreamState_eq_dec : EqDecision StreamState.
Proof. solve_decision. Defined.

#[global] Instance StreamAction_eq_dec : EqDecision StreamAction.
Proof. solve_decision. Defined.

(** The [iota] value of a state: the index into [StreamFSM]. *)
Definition StreamState_index (s : StreamState) : nat :=
  match s with
  | STATE_WAITPUBLISH => 0
  | STATE_PUBLISHING => 1
  | STATE_WAITCLOSE => 2
  | STATE_CLOSED => 3
  end.

(** [StreamFSM]: one map literal per state, in the order of the source. *)
Definition StreamFSM : list (list (StreamAction * StreamState)) :=
  [ [ (ACTION_PUBLISH, STATE_PUBLISHING);
      (ACTION_TIMEOUT, STATE_CLOSED);
      (ACTION_LASTLEAVE, STATE_CLOSED);
      (ACTION_CLOSE, STATE_CLOSED) ];
    [ (ACTION_PUBLISHLOST, STATE_WAITPUBLISH);
      (ACTION_LASTLEAVE, STATE_WAITCLOSE);
      (ACTION_CLOSE, STATE_CLOSED) ];
    [ (ACTION_PUBLISHLOST, STATE_CLOSED);
      (ACTION_TIMEOUT, STATE_CLOSED);
      (ACTION_FIRSTENTER, STATE_PUBLISHING);
      (ACTION_CLOSE, STATE_CLOSED) ];
    [] ].

(** Lookup in one of the map literals. *)
Fixpoint map_get (a : StreamAction) (m : list (StreamAction * StreamState))
  : option StreamState :=
  match m with
  | [] => None
  | (a', s) :: m' => if decide (a = a') then Some s else map_get a m'
  end.

(** A [StateEvent].  Its [Target] is the stream that the whole model is
    about, so it is not repeated in the record. *)
Record StateEvent : Set := mkStateEvent {
  Action : StreamAction;
  From : StreamState;
  Time : Z
}.

(** Modelled from the spec: [StateEvent.Next] is declared outside
    stream.go; by §3 and §4.5 a transition is a lookup of the event's From
    state and Action in the table, which the source holds in [StreamFSM]. *)
Definition Next (e : StateEvent) : option StreamState :=
  match StreamFSM !! StreamState_index (From e) with
  | Some m => map_get (Action e) m
  | None => None
  end.

(** The transition table as §4.5 of the specification prints it. *)
Definition spec_table (from : StreamState) (a : StreamAction) : option StreamState :=
  match from, a with
  | STATE_WAITPUBLISH, ACTION_PUBLISH => Some STATE_PUBLISHING
  | STATE_WAITPUBLISH, ACTION_TIMEOUT => Some STATE_CLOSED
  | STATE_WAITPUBLISH, ACTION_LASTLEAVE => Some STATE_CLOSED
  | STATE_WAITPUBLISH, ACTION_CLOSE => Some STATE_CLOSED
  | STATE_PUBLISHING, ACTION_PUBLISHLOST => Some STATE_WAITPUBLISH
  | STATE_PUBLISHING, ACTION_LASTLEAVE => Some STATE_WAITCLOSE
  | STATE_PUBLISHING, ACTION_CLOSE => Some STATE_CLOSED
  | STATE_WAITCLOSE, ACTION_PUBLISHLOST => Some STATE_CLOSED
  | STATE_WAITCLOSE, ACTION_TIMEOUT => Some STATE_CLOSED
  | STATE_WAITCLOSE, ACTION_FIRSTENTER => Some STATE_PUBLISHING
  | STATE_WAITCLOSE, ACTION_CLOSE => Some STATE_CLOSED
  | _, _ => None
  end.

(** *** Collaborators: publisher, subscriber, track *)

Record PublishConfig : Set := mkPublishConfig {
  WaitCloseTimeout : Z;
  PubAudio : bool;
  PubVideo : bool
}.

(** An [IPublisher]; [pub_id] stands for the identity of the Go object. *)
Record IPublisher : Set := mkPublisher {
  pub_id : nat;
  pub_Config : PublishConfig
}.

Record SubscribeConfig : Set := mkSubscribeConfig {
  SubAudio : bool;
  SubVideo : bool;
  SubAudioTracks : list string;
  SubVideoTracks : list string;
  SubAudioArgName : string;
  SubVideoArgName : string;
  SubDataArgName : string;
  WaitTimeout : Z
}.

(** An [ISubscriber]; [sub_Args] are the query arguments of its request. *)
Record ISubscriber : Set := mkSubscriber {
  sub_id : nat;
  sub_Config : SubscribeConfig;
  sub_Args : list (string * string)
}.

Inductive TrackKind : Set := Video | Audio | Data.

Inductive TrackStuff : Set := TrackStateOnline | TrackStateOffline.

#[global] Instance TrackKind_eq_dec : EqDecision TrackKind.
Proof. solve_decision. Defined.

(** A [Track] as the stream sees it: its name, its dynamic type, the state
    set through [SetStuff] and how often [Narrow] ran.  [track_id] stands
    for the identity of the Go object. *)
Record Track : Set := mkTrack {
  track_id : nat;
  Name : string;
  kind : TrackKind;
  stuff : TrackStuff;
  narrowed : nat
}.

(** Modelled from the spec: the tracks' own methods are outside src/; by
    §4.5 [SetStuff(TrackStateOffline)] marks the track offline, and by §3
    [Narrow] puts an audio track in narrow mode. *)
Definition SetStuff (st : TrackStuff) (t : Track) : Track :=
  {| track_id := track_id t; Name := Name t; kind := kind t; stuff := st;
     narrowed := narrowed t |}.

Definition Narrow (t : Track) : Track :=
  {| track_id := track_id t; Name := Name t; kind := kind t; stuff := stuff t;
     narrowed := S (narrowed t) |}.

(** *** What leaves the stream *)

(** The values handed to [EventBus], [Publisher.OnEvent], the subscribers'
    [OnEvent]. *)
Inductive Event : Set :=
| SEcreate
| SEpublish (e : StateEvent)
| SErepublish (e : StateEvent)
| SEwaitPublish (e : StateEvent) (p : option IPublisher)
| SEwaitClose (e : StateEvent)
| SEclose (e : StateEvent)
| EvStateEvent (e : StateEvent)
| EvSubscribePromise (promise : nat)
| EvSubscriber (sub : nat)
| EvTrack (t : Track)
| PulseEvent.

Inductive Err : Set := ErrStreamIsClosed | ErrBadStreamName | ErrBadTrackName.

Inductive Effect : Set :=
| BusSend (ev : Event)
| PublisherOnEvent (pub : nat) (ev : Event)
| SubscriberOnEvent (sub : nat) (ev : Event)
| Resolve (promise : nat)
| Reject (promise : nat) (err : Err)
| StreamsDelete (path : string)
| DisposeTrack (track : nat)
| Log (lvl : Level) (msg : string).

(** A [util.Promise]: the value it carries; [promise_id] stands for the
    identity of the Go object.  [Resolve] and [Reject] on it are effects. *)
Record Promise (A : Type) : Type := mkPromise {
  promise_id : nat;
  Value : A
}.
Arguments mkPromise {A} _ _.
Arguments promise_id {A} _.
Arguments Value {A} _.

(** *** Tracks *)

Module Tracks.

Record t : Type := mk {
  Map : gmap string Track;
  MainVideo : option nat
}.

(** Modelled from the spec: [util.Map.Add] is outside src/; by §4.5 a track
    is inserted by name and a duplicate name is refused. *)
Definition Map_Add (name : string) (tr : Track) (m : gmap string Track)
  : bool * gmap string Track :=
  match m !! name with
  | Some _ => (false, m)
  | None => (true, <[name := tr]> m)
  end.

(** Modelled from the spec: [util.Map.Delete] is outside src/; by §4.5 it
    deletes by name and reports the deleted track. *)
Definition Delete (name : string) (ts : t) : option Track * t :=
  match Map ts !! name with
  | Some tr => (Some tr, {| Map := delete name (Map ts); MainVideo := MainVideo ts |})
  | None => (None, ts)
  end.

Definition Len (ts : t) : Z := Z.of_nat (size (Map ts)).

(** [Range] with a callback that updates each track in place. *)
Definition Range (f : Track -> Track) (ts : t) : t :=
  {| Map := f <$> Map ts; MainVideo := MainVideo ts |}.

Definition narrow_audio (tr : Track) : Track :=
  if decide (kind tr = Audio) then Narrow tr else tr.

Definition SetIDR (video : Track) (ts : t) : t :=
  if decide (MainVideo ts = Some (track_id video))
  then Range narrow_audio ts
  else ts.

Definition Add (name : string) (tr : Track) (ts : t) : bool * t :=
  let '(tr1, ts1) :=
    match kind tr with
    | Video =>
        match MainVideo ts with
        | None => (tr, SetIDR tr {| Map := Map ts; MainVideo := Some (track_id tr) |})
        | Some _ => (tr, ts)
        end
    | Audio =>
        match MainVideo ts with
        | Some _ => (Narrow tr, ts)
        | None => (tr, ts)
        end
    | Data => (tr, ts)
    end in
  let '(ok, m) := Map_Add name tr1 (Map ts1) in
  (ok, {| Map := m; MainVideo := MainVideo ts1 |}).

End Tracks.

(** *** Subscribers *)

Module Subscribers.

(** Modelled from the spec: the subscriber set and the track waits are
    declared outside src/.  By §3 a wait names the tracks it is for (none:
    any track of its kind) and is over once a matching track is available or
    the wait is stopped. *)
Record waitTrack : Set := mkWait {
  names : list string;
  waiting : bool
}.

Definition noWait : waitTrack := {| names := []; waiting := false |}.

Definition Wait (ns : list string) (_ : waitTrack) : waitTrack :=
  {| names := ns; waiting := true |}.

Definition StopWait (w : waitTrack) : waitTrack :=
  {| names := names w; waiting := false |}.

Definition accept_name (n : string) (w : waitTrack) : waitTrack :=
  if waiting w && (bool_decide (names w = []) || bool_decide (n ∈ names w))
  then StopWait w else w.

Record waitTracks : Set := mkWaits {
  promise : nat;
  audio : waitTrack;
  video : waitTrack;
  data : waitTrack
}.

Definition Accept (tr : Track) (w : waitTracks) : waitTracks :=
  match kind tr with
  | Audio => {| promise := promise w; audio := accept_name (Name tr) (audio w);
                video := video w; data := data w |}
  | Video => {| promise := promise w; audio := audio w;
                video := accept_name (Name tr) (video w); data := data w |}
  | Data => {| promise := promise w; audio := audio w;
               video := video w; data := accept_name (Name tr) (data w) |}
  end.

Definition NeedWait (w : waitTracks) : bool :=
  waiting (audio w) || waiting (video w) || waiting (data w).

(** Modelled from the spec: §4.7.  The order of [subs] stands for the
    iteration order of the Go map, which the language leaves open; [pending]
    holds the waits of the subscribers whose subscribe promise is not
    resolved yet. *)
Record t : Set := mk {
  subs : list ISubscriber;
  pending : list waitTracks;
  waitAborted : bool
}.

Definition Len (s : t) : Z := Z.of_nat (length (subs s)).

(** "Pick(): return any one subscriber or nil." *)
Definition Pick (s : t) : option ISubscriber := head (subs s).

(** "Broadcast(event): deliver to every subscriber." *)
Definition Broadcast (ev : Event) (s : t) : list Effect :=
  (fun sub => SubscriberOnEvent (sub_id sub) ev) <$> subs s.

(** "OnPublisherLost(ev)": fan-out of the publisher loss. *)
Definition OnPublisherLost (e : StateEvent) (s : t) : list Effect :=
  Broadcast (EvStateEvent e) s.

(** "Add(sub, waits): insert; when all three waits are satisfied or aborted,
    resolve the subscribe promise." *)
Definition Add (sub : ISubscriber) (w : waitTracks) (s : t) : t * list Effect :=
  let subs' := filter (fun x => sub_id x ≠ sub_id sub) (subs s) ++ [sub] in
  if NeedWait w
  then ({| subs := subs'; pending := pending s ++ [w]; waitAborted := waitAborted s |}, [])
  else ({| subs := subs'; pending := pending s; waitAborted := waitAborted s |},
        [Resolve (promise w)]).

(** Removal from the subscriber set (§4.5, Unsubscribe). *)
Definition Delete (sub : ISubscriber) (s : t) : t :=
  {| subs := filter (fun x => sub_id x ≠ sub_id sub) (subs s);
     pending := pending s; waitAborted := waitAborted s |}.

(** "OnTrack(t)": the new track satisfies the waits it matches; a subscribe
    promise with no wait left is resolved. *)
Definition OnTrack (tr : Track) (s : t) : t * list Effect :=
  let ws := Accept tr <$> pending s in
  ({| subs := subs s;
      pending := filter (fun w => NeedWait w = true) ws;
      waitAborted := waitAborted s |},
   (fun w => Resolve (promise w)) <$> filter (fun w => NeedWait w = false) ws).

(** "AbortWait(): mark a shared flag so all new and current waits stop
    blocking; re-resolves any pending subscribe promises." *)
Definition AbortWait (s : t) : t * list Effect :=
  ({| subs := subs s; pending := []; waitAborted := true |},
   (fun w => Resolve (promise w)) <$> pending s).

End Subscribers.

(** *** The Stream *)

(** What travels on the action queue ([actionChan] carries [any]; these are
    the dynamic types the [run] loop switches on). *)
Inductive Item : Type :=
| ItSubPulse (sub : ISubscriber)
| ItPublish (v : Promise (option IPublisher))
| ItSubscribe (v : Promise ISubscriber)
| ItUnsubscribe (sub : ISubscriber)
| ItTrackRemoved (tr : Track)
| ItTrack (v : Promise Track)
| ItNoMoreTrack
| ItStreamAction (a : StreamAction)
| ItUnknown.

(** Modelled from the spec: [util.SafeChan] is outside src/; by §4.5 and §5
    the queue is closed on the way to Closed and a sender to a closed queue
    observes the closure.  Blocking on a full queue is not modelled. *)
Record SafeChan : Type := mkChan {
  chan_closed : bool;
  chan_buf : list Item
}.

Definition SafeChan_Send (it : Item) (c : SafeChan) : bool * SafeChan :=
  if chan_closed c then (false, c)
  else (true, {| chan_closed := false; chan_buf := chan_buf c ++ [it] |}).

Definition SafeChan_Close (c : SafeChan) : SafeChan :=
  {| chan_closed := true; chan_buf := chan_buf c |}.

(** A [time.Timer]: armed with a duration by [Reset], or stopped. *)
Inductive Timer : Set :=
| TimerReset (d : Z)
| TimerStopped.

Record Stream : Type := mkStream {
  timeout : Timer;
  actionChan : SafeChan;
  PublishTimeout : Z;
  DelayCloseTimeout : Z;
  IdleTimeout : Z;
  Path : string;
  Publisher : option IPublisher;
  State : StreamState;
  SEHistory : list StateEvent;
  Subscribers : Subscribers.t;
  Tracks : Tracks.t
}.

Definition set_timeout (x : Timer) (r : Stream) : Stream :=
  {| timeout := x; actionChan := actionChan r; PublishTimeout := PublishTimeout r;
     DelayCloseTimeout := DelayCloseTimeout r; IdleTimeout := IdleTimeout r;
     Path := Path r; Publisher := Publisher r; State := State r;
     SEHistory := SEHistory r; Subscribers := Subscribers r; Tracks := Tracks r |}.

Definition set_actionChan (x : SafeChan) (r : Stream) : Stream :=
  {| timeout := timeout r; actionChan := x; PublishTimeout := PublishTimeout r;
     DelayCloseTimeout := DelayCloseTimeout r; IdleTimeout := IdleTimeout r;
     Path := Path r; Publisher := Publisher r; State := State r;
     SEHistory := SEHistory r; Subscribers := Subscribers r; Tracks := Tracks r |}.

Definition set_Publisher (x : option IPublisher) (r : Stream) : Stream :=
  {| timeout := timeout r; actionChan := actionChan r; PublishTimeout := PublishTimeout r;
     DelayCloseTimeout := DelayCloseTimeout r; IdleTimeout := IdleTimeout r;
     Path := Path r; Publisher := x; State := State r;
     SEHistory := SEHistory r; Subscribers := Subscribers r; Tracks := Tracks r |}.

Definition set_State (x : StreamState) (r : Stream) : Stream :=
  {| timeout := timeout r; actionChan := actionChan r; PublishTimeout := PublishTimeout r;
     DelayCloseTimeout := DelayCloseTimeout r; IdleTimeout := IdleTimeout r;
     Path := Path r; Publisher := Publisher r; State := x;
     SEHistory := SEHistory r; Subscribers := Subscribers r; Tracks := Tracks r |}.

Definition set_SEHistory (x : list StateEvent) (r : Stream) : Stream :=
  {| timeout := timeout r; actionChan := actionChan r; PublishTimeout := PublishTimeout r;
     DelayCloseTimeout := DelayCloseTimeout r; IdleTimeout := IdleTimeout r;
     Path := Path r; Publisher := Publisher r; State := State r;
     SEHistory := x; Subscribers := Subscribers r; Tracks := Tracks r |}.

Definition set_Subscribers (x : Subscribers.t) (r : Stream) : Stream :=
  {| timeout := timeout r; actionChan := actionChan r; PublishTimeout := PublishTimeout r;
     DelayCloseTimeout := DelayCloseTimeout r; IdleTimeout := IdleTimeout r;
     Path := Path r; Publisher := Publisher r; State := State r;
     SEHistory := SEHistory r; Subscribers := x; Tracks := Tracks r |}.

Definition set_Tracks (x : Tracks.t) (r : Stream) : Stream :=
  {| timeout := timeout r; actionChan := actionChan r; PublishTimeout := PublishTimeout r;
     DelayCloseTimeout := DelayCloseTimeout r; IdleTimeout := IdleTimeout r;
     Path := Path r; Publisher := Publisher r; State := State r;
     SEHistory := SEHistory r; Subscribers := Subscribers r; Tracks := x |}.

(** The stream together with what surrounds it: the [pulseSuber] set local
    to [run], the reading of the clock, and the trace of effects so far. *)
Record World : Type := mkWorld {
  strm : Stream;
  pulseSuber : list nat;
  clock : Z;
  out : list Effect
}.

Definition gets {A} (f : Stream -> A) : M World A :=
  fun w => Ok (f (strm w), w).

Definition modify (f : Stream -> Stream) : M World unit :=
  fun w => Ok (tt, {| strm := f (strm w); pulseSuber := pulseSuber w;
                      clock := clock w; out := out w |}).

Definition emits (es : list Effect) : M World unit :=
  fun w => Ok (tt, {| strm := strm w; pulseSuber := pulseSuber w;
                      clock := clock w; out := out w ++ es |}).

Definition emit (e : Effect) : M World unit := emits [e].

Definition time_Now : M World Z := fun w => Ok (clock w, w).

Definition timeout_Reset (d : Z) : M World unit := modify (set_timeout (TimerReset d)).

Definition timeout_Stop : M World unit := modify (set_timeout TimerStopped).

(** The tail of [action]: the event goes to the bus and to the publisher. *)
Definition publish_stateEvent (stateEvent : Event) : M World bool :=
  emit (BusSend stateEvent) ;;
  pub <- gets Publisher ;;
  match pub with
  | Some p => emit (PublisherOnEvent (pub_id p) stateEvent)
  | None => ret tt
  end ;;
  ret true.

(** [Stream.action], with the recursive call as [self]. *)
Definition action_body (self : StreamAction -> M World bool) (action : StreamAction)
  : M World bool :=
  from <- gets State ;;
  now <- time_Now ;;
  let event := {| Action := action; From := from; Time := now |} in
  match Next event with
  | Some next =>
      modify (set_State next) ;;
      modify (fun r => set_SEHistory (SEHistory r ++ [event]) r) ;;
      emit (Log LInfo "state change") ;;
      match next with
      | STATE_WAITPUBLISH =>
          pub <- gets Publisher ;;
          let stateEvent := SEwaitPublish event pub in
          waitTime <- match pub with
                      | Some p =>
                          modify (fun r => set_Tracks (Tracks.Range (SetStuff TrackStateOffline) (Tracks r)) r) ;;
                          ret (WaitCloseTimeout (pub_Config p))
                      | None => ret 0
                      end ;;
          lost <- gets (fun r => Subscribers.OnPublisherLost event (Subscribers r)) ;;
          emits lost ;;
          suber <- gets (fun r => Subscribers.Pick (Subscribers r)) ;;
          waitTime <- match suber with
                      | Some sub =>
                          bc <- gets (fun r => Subscribers.Broadcast stateEvent (Subscribers r)) ;;
                          emits bc ;;
                          ret (if waitTime =? 0 then WaitTimeout (sub_Config sub) else waitTime)
                      | None =>
                          ret (if waitTime =? 0 then Millisecond * 10 else waitTime)
                      end ;;
          timeout_Reset waitTime ;;
          emit (Log LDebug "wait publisher") ;;
          publish_stateEvent stateEvent
      | STATE_PUBLISHING =>
          hist <- gets SEHistory ;;
          let stateEvent := if 1 <? Z.of_nat (length hist)
                            then SErepublish event else SEpublish event in
          bc <- gets (fun r => Subscribers.Broadcast stateEvent (Subscribers r)) ;;
          emits bc ;;
          idle <- gets IdleTimeout ;;
          n <- gets (fun r => Subscribers.Len (Subscribers r)) ;;
          if (0 <? idle) && (n =? 0)
          then self ACTION_LASTLEAVE
          else (pt <- gets PublishTimeout ;;
                timeout_Reset pt ;;
                publish_stateEvent stateEvent)
      | STATE_WAITCLOSE =>
          let stateEvent := SEwaitClose event in
          idle <- gets IdleTimeout ;;
          (if 0 <? idle
           then timeout_Reset idle
           else (d <- gets DelayCloseTimeout ;; timeout_Reset d)) ;;
          publish_stateEvent stateEvent
      | STATE_CLOSED =>
          modify (fun r => set_actionChan (SafeChan_Close (actionChan r)) r) ;;
          let stateEvent := SEclose event in
          bc <- gets (fun r => Subscribers.Broadcast stateEvent (Subscribers r)) ;;
          emits bc ;;
          path <- gets Path ;;
          emit (StreamsDelete path) ;;
          timeout_Stop ;;
          publish_stateEvent stateEvent
      end
  | None =>
      emit (Log LDebug "wrong action") ;;
      ret false
  end.

(** The recursion of [action] unrolled [n] times; beyond that depth the
    model gives up with [Panic].  [action_depth] shows that depth 2 is
    always enough, so [action] is the Go function. *)
Fixpoint action_n (n : nat) (a : StreamAction) : M World bool :=
  match n with
  | O => panic
  | S n' => action_body (action_n n') a
  end.

Definition action : StreamAction -> M World bool := action_n 2.

(** The [Stream] literal of [findOrCreateStream], after the [Init] calls:
    every field not named there has its zero value, so the state is
    [STATE_WAITPUBLISH] and the history is empty. *)
Definition newStream (streamPath : string) (waitTimeout : Z) : Stream :=
  {| timeout := TimerReset waitTimeout;
     actionChan := {| chan_closed := false; chan_buf := [] |};
     PublishTimeout := 0;
     DelayCloseTimeout := 0;
     IdleTimeout := 0;
     Path := streamPath;
     Publisher := None;
     State := STATE_WAITPUBLISH;
     SEHistory := [];
     Subscribers := {| Subscribers.subs := []; Subscribers.pending := [];
                       Subscribers.waitAborted := false |};
     Tracks := {| Tracks.Map := ∅; Tracks.MainVideo := None |} |}.

Definition IsClosed (r : Stream) : bool := bool_decide (State r = STATE_CLOSED).

Definition Receive (event : Item) : M World bool :=
  closed <- gets IsClosed ;;
  if closed then ret false
  else (c <- gets actionChan ;;
        let sent := SafeChan_Send event c in
        modify (set_actionChan (snd sent)) ;;
        ret (fst sent)).

(** [Stream.Close] *)
Definition Close : M World unit :=
  Receive (ItStreamAction ACTION_CLOSE) ;; ret tt.

Definition onSuberClose (sub : ISubscriber) : M World unit :=
  modify (fun r => set_Subscribers (Subscribers.Delete sub (Subscribers r)) r) ;;
  pub <- gets Publisher ;;
  match pub with
  | Some p => emit (PublisherOnEvent (pub_id p) (EvSubscriber (sub_id sub)))
  | None => ret tt
  end ;;
  d <- gets DelayCloseTimeout ;;
  idle <- gets IdleTimeout ;;
  n <- gets (fun r => Subscribers.Len (Subscribers r)) ;;
  if ((0 <? d) || (0 <? idle)) && (n =? 0)
  then (action ACTION_LASTLEAVE ;; ret tt)
  else ret tt.

(** [io.Args.Get]: the first value under the name, or the empty string. *)
Fixpoint Args_Get (name : string) (args : list (string * string)) : string :=
  match args with
  | [] => EmptyString
  | (k, v) :: rest => if String.eqb k name then v else Args_Get name rest
  end.

(** [strings.Split(s, ",")] *)
Fixpoint Split (s : string) : list string :=
  match s with
  | EmptyString => [EmptyString]
  | String c s' =>
      if Ascii.eqb c ","%char then EmptyString :: Split s'
      else match Split s' with
           | [] => [String c EmptyString]
           | x :: xs => String c x :: xs
           end
  end.

(** The waits a subscribe request starts with (the three if-chains on the
    request's arguments and configuration). *)
Definition build_waits (v : Promise ISubscriber) : Subscribers.waitTracks :=
  let io := Value v in
  let sbConfig := sub_Config io in
  let ats := Args_Get (SubAudioArgName sbConfig) (sub_Args io) in
  let vts := Args_Get (SubVideoArgName sbConfig) (sub_Args io) in
  let dts := Args_Get (SubDataArgName sbConfig) (sub_Args io) in
  {| Subscribers.promise := promise_id v;
     Subscribers.audio :=
       if negb (String.eqb ats EmptyString) then Subscribers.Wait (Split ats) Subscribers.noWait
       else if (0 <? Z.of_nat (length (SubAudioTracks sbConfig)))
            then Subscribers.Wait (SubAudioTracks sbConfig) Subscribers.noWait
            else if SubAudio sbConfig then Subscribers.Wait [] Subscribers.noWait
                 else Subscribers.noWait;
     Subscribers.video :=
       if negb (String.eqb vts EmptyString) then Subscribers.Wait (Split vts) Subscribers.noWait
       else if (0 <? Z.of_nat (length (SubVideoTracks sbConfig)))
            then Subscribers.Wait (SubVideoTracks sbConfig) Subscribers.noWait
            else if SubVideo sbConfig then Subscribers.Wait [] Subscribers.noWait
                 else Subscribers.noWait;
     Subscribers.data :=
       if negb (String.eqb dts EmptyString) then Subscribers.Wait (Split dts) Subscribers.noWait
       else Subscribers.noWait |}.

(** [s.Publisher == v.Value]: identity of the two interface values. *)
Definition same_publisher (a b : option IPublisher) : bool :=
  match a, b with
  | None, None => true
  | Some x, Some y => Nat.eqb (pub_id x) (pub_id y)
  | _, _ => false
  end.

(** [s.GetPublisherConfig()]: dereferences the publisher, nil or not. *)
Definition GetPublisherConfig : M World PublishConfig :=
  pub <- gets Publisher ;;
  match pub with
  | Some p => ret (pub_Config p)
  | None => panic
  end.

Definition set_pulseSuber (f : list nat -> list nat) : M World unit :=
  fun w => Ok (tt, {| strm := strm w; pulseSuber := f (pulseSuber w);
                      clock := clock w; out := out w |}).

Definition Subscribers_AbortWait : M World unit :=
  r <- gets (fun s => Subscribers.AbortWait (Subscribers s)) ;;
  modify (set_Subscribers (fst r)) ;;
  emits (snd r).

(** The body of [run] for one item received from [actionChan] (the third
    case of the [select], with [ok] true). *)
Definition dispatch (item : Item) : M World unit :=
  match item with
  | ItSubPulse v =>
      set_pulseSuber (fun l => sub_id v :: filter (fun x => x ≠ sub_id v) l)
  | ItPublish v =>
      closed <- gets IsClosed ;;
      (if closed then emit (Reject (promise_id v) ErrStreamIsClosed) else ret tt) ;;
      pub <- gets Publisher ;;
      let republish := same_publisher pub (Value v) in
      (if republish then ret tt else modify (set_Publisher (Value v))) ;;
      ok <- action ACTION_PUBLISH ;;
      if ok || republish
      then emit (Resolve (promise_id v))
      else emit (Reject (promise_id v) ErrBadStreamName)
  | ItSubscribe v =>
      closed <- gets IsClosed ;;
      (if closed then emit (Reject (promise_id v) ErrStreamIsClosed) else ret tt) ;;
      let suber := Value v in
      let waits := build_waits v in
      pub <- gets Publisher ;;
      waits <- match pub with
               | Some p =>
                   emit (PublisherOnEvent (pub_id p) (EvSubscribePromise (promise_id v))) ;;
                   let pubConfig := pub_Config p in
                   tracks <- gets (fun r => map_to_list (Tracks.Map (Tracks r))) ;;
                   aborted <- gets (fun r => Subscribers.waitAborted (Subscribers r)) ;;
                   let w1 := foldl (fun w nt => Subscribers.Accept (snd nt) w) waits tracks in
                   let w2 := if negb (PubAudio pubConfig) || aborted
                             then {| Subscribers.promise := Subscribers.promise w1;
                                     Subscribers.audio := Subscribers.StopWait (Subscribers.audio w1);
                                     Subscribers.video := Subscribers.video w1;
                                     Subscribers.data := Subscribers.data w1 |}
                             else w1 in
                   let w3 := if negb (PubVideo pubConfig) || aborted
                             then {| Subscribers.promise := Subscribers.promise w2;
                                     Subscribers.audio := Subscribers.audio w2;
                                     Subscribers.video := Subscribers.StopWait (Subscribers.video w2);
                                     Subscribers.data := Subscribers.data w2 |}
                             else w2 in
                   ret w3
               | None => ret waits
               end ;;
      added <- gets (fun r => Subscribers.Add suber waits (Subscribers r)) ;;
      modify (set_Subscribers (fst added)) ;;
      emits (snd added) ;;
      n <- gets (fun r => Subscribers.Len (Subscribers r)) ;;
      st <- gets State ;;
      if (n =? 1) && bool_decide (st = STATE_WAITCLOSE)
      then (action ACTION_FIRSTENTER ;; ret tt)
      else ret tt
  | ItUnsubscribe v =>
      set_pulseSuber (filter (fun x => x ≠ sub_id v)) ;;
      onSuberClose v
  | ItTrackRemoved v =>
      let name := Name v in
      del <- gets (fun r => Tracks.Delete name (Tracks r)) ;;
      match fst del with
      | Some t =>
          modify (set_Tracks (snd del)) ;;
          emit (Log LInfo "track -1") ;;
          bc <- gets (fun r => Subscribers.Broadcast (EvTrack t) (Subscribers r)) ;;
          emits bc ;;
          n <- gets (fun r => Tracks.Len (Tracks r)) ;;
          (if n =? 0 then (action ACTION_PUBLISHLOST ;; ret tt) else ret tt) ;;
          if decide (kind t = Data) then emit (DisposeTrack (track_id t)) else ret tt
      | None => ret tt
      end
  | ItTrack v =>
      st <- gets State ;;
      (if decide (st = STATE_WAITPUBLISH) then (action ACTION_PUBLISH ;; ret tt) else ret tt) ;;
      let name := Name (Value v) in
      added <- gets (fun r => Tracks.Add name (Value v) (Tracks r)) ;;
      if fst added
      then (modify (set_Tracks (snd added)) ;;
            emit (Resolve (promise_id v)) ;;
            ot <- gets (fun r => Subscribers.OnTrack (Value v) (Subscribers r)) ;;
            modify (set_Subscribers (fst ot)) ;;
            emits (snd ot) ;;
            (if decide (kind (Value v) = Video)
             then (cfg <- GetPublisherConfig ;;
                   if negb (PubAudio cfg) then Subscribers_AbortWait else ret tt)
             else ret tt) ;;
            (if decide (kind (Value v) = Audio)
             then (cfg <- GetPublisherConfig ;;
                   if negb (PubVideo cfg) then Subscribers_AbortWait else ret tt)
             else ret tt) ;;
            timeout_Reset (Second * 5))
      else (modify (set_Tracks (snd added)) ;;
            emit (Reject (promise_id v) ErrBadTrackName))
  | ItNoMoreTrack => Subscribers_AbortWait
  | ItStreamAction v => action v ;; ret tt
  | ItUnknown => emit (Log LError "unknown action")
  end.

(** *** The vocabulary of the properties

    What follows is not part of stream.go: these definitions only serve to
    state what the code above does. *)

(** The events [evs], in order, are transitions of the §4.5 table that
    lead from [from] to the state returned. *)
Fixpoint follows_table (from : StreamState) (evs : list StateEvent)
  : option StreamState :=
  match evs with
  | [] => Some from
  | e :: evs' =>
      if decide (From e = from)
      then match spec_table from (Action e) with
           | Some next => follows_table next evs'
           | None => None
           end
      else None
  end.

(** The world [w] after the effects [es], with nothing else changed. *)
Definition add_out (es : list Effect) (w : World) : World :=
  {| strm := strm w; pulseSuber := pulseSuber w; clock := clock w; out := out w ++ es |}.

(** Effects that carry a state event of the stream. *)
Definition is_state_event (e : Effect) : bool :=
  match e with
  | BusSend _ => true
  | StreamsDelete _ => true
  | PublisherOnEvent _ ev | SubscriberOnEvent _ ev =>
      match ev with
      | SEcreate | SEpublish _ | SErepublish _ | SEwaitPublish _ _
      | SEwaitClose _ | SEclose _ | EvStateEvent _ => true
      | _ => false
      end
  | _ => false
  end.

Definition quiet (es : list Effect) : Prop := Forall (fun e => is_state_event e = false) es.

(** From [w] to [w'] the stream stays closed, its history is the same, and
    no state event is among the effects added. *)
Definition closed_step (w w' : World) : Prop :=
  State (strm w') = STATE_CLOSED /\
  SEHistory (strm w') = SEHistory (strm w) /\
  exists es, out w' = out w ++ es /\ quiet es.

(** The call of [Publisher.OnEvent] at the end of [action], if there is a
    publisher. *)
Definition publisher_gets (pub : option IPublisher) (ev : Event) : list Effect :=
  match pub with
  | Some p => [PublisherOnEvent (pub_id p) ev]
  | None => []
  end.

(** The number of times the promise [p] is resolved or rejected in a trace. *)
Definition settles (p : nat) (e : Effect) : bool :=
  match e with
  | Resolve q | Reject q _ => Nat.eqb p q
  | _ => false
  end.

Definition settled (p : nat) (es : list Effect) : nat :=
  length (filter (fun e => settles p e = true) es).

(** Concrete streams. *)
Definition pub1 : IPublisher :=
  {| pub_id := 1;
     pub_Config := {| WaitCloseTimeout := 0; PubAudio := true; PubVideo := true |} |}.

Definition sub1 : ISubscriber :=
  {| sub_id := 2;
     sub_Config := {| SubAudio := false; SubVideo := false; SubAudioTracks := [];
                      SubVideoTracks := []; SubAudioArgName := "ats";
                      SubVideoArgName := "vts"; SubDataArgName := "dts";
                      WaitTimeout := 0 |};
     sub_Args := [] |}.

Definition video1 : Track :=
  {| track_id := 3; Name := "v"; kind := Video; stuff := TrackStateOnline; narrowed := 0 |}.

Definition world_of (r : Stream) : World :=
  {| strm := r; pulseSuber := []; clock := 0; out := [] |}.

Definition fresh : Stream := newStream "live/test" 0.

(** A stream that waits for its publisher, with an idle timeout and nobody
    subscribed. *)
Definition idle_stream : Stream :=
  {| timeout := TimerReset 0;
     actionChan := {| chan_closed := false; chan_buf := [] |};
     PublishTimeout := 0; DelayCloseTimeout := 0; IdleTimeout := Second;
     Path := "live/test"; Publisher := Some pub1; State := STATE_WAITPUBLISH;
     SEHistory := [];
     Subscribers := {| Subscribers.subs := []; Subscribers.pending := [];
                       Subscribers.waitAborted := false |};
     Tracks := {| Tracks.Map := ∅; Tracks.MainVideo := None |} |}.

(** A publishing stream with a track and no publisher object. *)
Definition lost_stream : Stream :=
  {| timeout := TimerReset 0;
     actionChan := {| chan_closed := false; chan_buf := [] |};
     PublishTimeout := 0; DelayCloseTimeout := 0; IdleTimeout := 0;
     Path := "live/test"; Publisher := None; State := STATE_PUBLISHING;
     SEHistory := [{| Action := ACTION_PUBLISH; From := STATE_WAITPUBLISH; Time := 0 |}];
     Subscribers := {| Subscribers.subs := []; Subscribers.pending := [];
                       Subscribers.waitAborted := false |};
     Tracks := {| Tracks.Map := {[ "v" := video1 ]}; Tracks.MainVideo := None |} |}.

(** A closed stream that still has its publisher and one subscriber. *)
Definition closed_stream : Stream :=
  {| timeout := TimerStopped;
     actionChan := {| chan_closed := true; chan_buf := [] |};
     PublishTimeout := 0; DelayCloseTimeout := 0; IdleTimeout := 0;
     Path := "live/test"; Publisher := Some pub1; State := STATE_CLOSED;
     SEHistory := [{| Action := ACTION_CLOSE; From := STATE_WAITPUBLISH; Time := 0 |}];
     Subscribers := {| Subscribers.subs := [sub1]; Subscribers.pending := [];
                       Subscribers.waitAborted := false |};
     Tracks := {| Tracks.Map := ∅; Tracks.MainVideo := None |} |}.

(** A publish request of a publisher that is not the stream's. *)
Definition other_publisher : Promise (option IPublisher) :=
  {| promise_id := 9;
     Value := Some {| pub_id := 4; pub_Config := pub_Config pub1 |} |}.

End Engine.

(** ** track/h265.go *)

Module H265.

(** A [[]byte]; [None] in a field of this type is the nil slice. *)
Abbreviation Buffer := (list Z).

(** [io.ErrShortWrite], and the other error values a collaborator may
    return. *)
Inductive error : Set :=
| ErrShortWrite
| ErrOther (code : nat).

#[global] Instance error_eq_dec : EqDecision error.
Proof. solve_decision. Defined.

Record codec_SPSInfo : Set := mkSPSInfo {
  Width : Z;
  Height : Z
}.

(** Modelled from the spec: [util.BLL], the linked byte list, is outside
    src/.  [items] are the values of the nodes linked after the list's own
    node, in order (the first one is [Next.Value]); [ByteLength] is the
    field of that name, which h265.go also updates by hand. *)
Record BLL : Set := mkBLL {
  items : list Buffer;
  ByteLength : Z
}.

(** [frame.Recycle()]: the nodes go back to their pool. *)
Definition Recycle (_ : BLL) : BLL := {| items := []; ByteLength := 0 |}.






(** Modelled from the spec: the NALU types whose numbers the
    specification gives (§4.1, §4.3, §8). *)
Definition NAL_UNIT_CODED_SLICE_IDR : Z := 19.
Definition NAL_UNIT_VPS : Z := 32.
Definition NAL_UNIT_SPS : Z := 33.
Definition NAL_UNIT_PPS : Z := 34.


(** What package [codec] provides and src/ does not hold: the other NALU
    type constants, the packet types of the extended AVCC header, and the
    parsers and the builder of the sequence header. *)
Record Codec : Type := mkCodec {
  NAL_UNIT_CODED_SLICE_BLA : Z;
  NAL_UNIT_CODED_SLICE_BLANT : Z;
  NAL_UNIT_CODED_SLICE_BLA_N_LP : Z;
  NAL_UNIT_CODED_SLICE_IDR_N_LP : Z;
  NAL_UNIT_CODED_SLICE_CRA : Z;
  NAL_UNIT_SEI : Z;
  PacketTypeSequenceStart : Z;
  PacketTypeCodedFrames : Z;
  PacketTypeCodedFramesX : Z;
  ParseHevcSPS : Buffer -> codec_SPSInfo;
  BuildH265SeqHeaderFromVpsSpsPps : Buffer -> Buffer -> Buffer -> Buffer * option error;
  ParseVpsSpsPpsFromSeqHeaderWithoutMalloc :
    Buffer -> option Buffer * option Buffer * option Buffer * option error
}.

(** The case lists of the two [switch] statements hold constants, and Go
    refuses a [switch] with a duplicate constant: the NALU types of
    [WriteSliceBytes] are pairwise different (and none is one of the
    literals 0..9), and so are the three packet types of [WriteAVCC]. *)
Definition switch_types (c : Codec) : list Z :=
  [ NAL_UNIT_VPS; NAL_UNIT_SPS; NAL_UNIT_PPS;
    NAL_UNIT_CODED_SLICE_BLA c; NAL_UNIT_CODED_SLICE_BLANT c;
    NAL_UNIT_CODED_SLICE_BLA_N_LP c; NAL_UNIT_CODED_SLICE_IDR;
    NAL_UNIT_CODED_SLICE_IDR_N_LP c; NAL_UNIT_CODED_SLICE_CRA c;
    0; 1; 2; 3; 4; 5; 6; 7; 8; 9; NAL_UNIT_SEI c ].

Definition packet_types (c : Codec) : list Z :=
  [ PacketTypeSequenceStart c; PacketTypeCodedFrames c; PacketTypeCodedFramesX c ].

Definition codec_ok (c : Codec) : Prop :=
  NoDup (switch_types c) /\ NoDup (packet_types c).



(** The [AVFrame] in the current slot of the ring: the key-frame flag, the
    access unit as a list of NALUs, its timestamp, and whether
    [insertDCRtp] put the decoder-configuration packet in front of it. *)
Record AVFrame : Set := mkAVFrame {
  IFrame : bool;
  AUList : list BLL;
  PTS : Z;
  DCRtp : bool
}.

Definition emptyFrame : AVFrame :=
  {| IFrame := false; AUList := []; PTS := 0; DCRtp := false |}.

(** The [H265] track: its own [VPS], the fields of the embedded [Video]
    that h265.go reads or writes, the frames flushed so far, the number of
    [Stream.Close()] calls made, and the log. *)
Record H265 : Type := mkH265 {
  VPS : option Buffer;
  SPS : option Buffer;
  PPS : option Buffer;
  ParamaterSets : list Buffer;
  SPSInfo : codec_SPSInfo;
  SequenceHead : Buffer;
  nalulenSize : Z;
  dcChanged : bool;
  Value : AVFrame;
  flushed : list AVFrame;
  Stream_Close : nat;
  logs : list (Level * string)
}.

Definition set_VPS (x : option Buffer) (vt : H265) : H265 :=
  {| VPS := x; SPS := SPS vt; PPS := PPS vt; ParamaterSets := ParamaterSets vt;
     SPSInfo := SPSInfo vt; SequenceHead := SequenceHead vt; nalulenSize := nalulenSize vt;
     dcChanged := dcChanged vt; Value := Value vt; flushed := flushed vt;
     Stream_Close := Stream_Close vt; logs := logs vt |}.

Definition set_SPS (x : option Buffer) (vt : H265) : H265 :=
  {| VPS := VPS vt; SPS := x; PPS := PPS vt; ParamaterSets := ParamaterSets vt;
     SPSInfo := SPSInfo vt; SequenceHead := SequenceHead vt; nalulenSize := nalulenSize vt;
     dcChanged := dcChanged vt; Value := Value vt; flushed := flushed vt;
     Stream_Close := Stream_Close vt; logs := logs vt |}.

Definition set_PPS (x : option Buffer) (vt : H265) : H265 :=
  {| VPS := VPS vt; SPS := SPS vt; PPS := x; ParamaterSets := ParamaterSets vt;
     SPSInfo := SPSInfo vt; SequenceHead := SequenceHead vt; nalulenSize := nalulenSize vt;
     dcChanged := dcChanged vt; Value := Value vt; flushed := flushed vt;
     Stream_Close := Stream_Close vt; logs := logs vt |}.


Definition set_SPSInfo (x : codec_SPSInfo) (vt : H265) : H265 :=
  {| VPS := VPS vt; SPS := SPS vt; PPS := PPS vt; ParamaterSets := ParamaterSets vt;
     SPSInfo := x; SequenceHead := SequenceHead vt; nalulenSize := nalulenSize vt;
     dcChanged := dcChanged vt; Value := Value vt; flushed := flushed vt;
     Stream_Close := Stream_Close vt; logs := logs vt |}.

Definition set_SequenceHead (x : Buffer) (vt : H265) : H265 :=
  {| VPS := VPS vt; SPS := SPS vt; PPS := PPS vt; ParamaterSets := ParamaterSets vt;
     SPSInfo := SPSInfo vt; SequenceHead := x; nalulenSize := nalulenSize vt;
     dcChanged := dcChanged vt; Value := Value vt; flushed := flushed vt;
     Stream_Close := Stream_Close vt; logs := logs vt |}.

Definition set_nalulenSize (x : Z) (vt : H265) : H265 :=
  {| VPS := VPS vt; SPS := SPS vt; PPS := PPS vt; ParamaterSets := ParamaterSets vt;
     SPSInfo := SPSInfo vt; SequenceHead := SequenceHead vt; nalulenSize := x;
     dcChanged := dcChanged vt; Value := Value vt; flushed := flushed vt;
     Stream_Close := Stream_Close vt; logs := logs vt |}.



(** [vt.Stream.Close()] *)
Definition Stream_Close_call (vt : H265) : H265 :=
  {| VPS := VPS vt; SPS := SPS vt; PPS := PPS vt; ParamaterSets := ParamaterSets vt;
     SPSInfo := SPSInfo vt; SequenceHead := SequenceHead vt; nalulenSize := nalulenSize vt;
     dcChanged := dcChanged vt; Value := Value vt; flushed := flushed vt;
     Stream_Close := S (Stream_Close vt); logs := logs vt |}.

(** [vt.Debug], [vt.Warn], [vt.Error] *)
Definition log (lvl : Level) (msg : string) (vt : H265) : H265 :=
  {| VPS := VPS vt; SPS := SPS vt; PPS := PPS vt; ParamaterSets := ParamaterSets vt;
     SPSInfo := SPSInfo vt; SequenceHead := SequenceHead vt; nalulenSize := nalulenSize vt;
     dcChanged := dcChanged vt; Value := Value vt; flushed := flushed vt;
     Stream_Close := Stream_Close vt; logs := logs vt ++ [(lvl, msg)] |}.



(** [NewH265]: the fields h265.go sets itself. *)
Definition NewH265 : H265 :=
  {| VPS := None; SPS := None; PPS := None; ParamaterSets := [[]; []; []];
     SPSInfo := {| Width := 0; Height := 0 |}; SequenceHead := []; nalulenSize := 4;
     dcChanged := false; Value := emptyFrame; flushed := [];
     Stream_Close := 0; logs := [] |}.

(** Modelled from the spec: the methods of the embedded track are outside
    src/.  By §3 and §4.2-§4.3: [WriteSequenceHead] makes the bytes the
    track's sequence header; [AppendAuBytes] appends the NALU to the access
    unit of the current frame; [WriteSliceByte] emits a new NALU that starts
    with the given header bytes (§4.1, reassembly); [generateTimestamp] sets
    the timestamp of the frame; [insertDCRtp] puts the decoder-configuration
    packet in front; [Flush] hands the frame over and moves to a fresh
    slot of the ring. *)
Definition WriteSequenceHead (head : Buffer) (vt : H265) : H265 :=
  set_SequenceHead head vt.







(** What the embedded [Video] track and the packages around it provide and
    src/ does not hold: the MTU constant, the AVCC writer of the base
    track, and two readers of [util.BLL]. *)
Record VideoBase : Type := mkVideoBase {
  RTPMTU : Z;
  Video_WriteAVCC : Z -> BLL -> H265 -> Res (option error * BLL * H265);
  GetByte : BLL -> Z -> Z;
  ToBytes : BLL -> Buffer
}.

Section WithCodec.

Context (codec : Codec) (base : VideoBase).






Definition writeSequenceHead (head : Buffer) (vt : H265) : Res (option error * H265) :=
  let vt1 := WriteSequenceHead head vt in
  let '(vps, sps, pps, err) :=
    ParseVpsSpsPpsFromSeqHeaderWithoutMalloc codec (SequenceHead vt1) in
  let vt2 := set_PPS pps (set_SPS sps (set_VPS vps vt1)) in
  match err with
  | None =>
      let vt3 := set_SPSInfo (ParseHevcSPS codec (SequenceHead vt2)) vt2 in
      match SequenceHead vt3 !! 26%nat with
      | Some b => Ok (None, set_nalulenSize (Z.land b 0x03 + 1) vt3)
      | None => Panic
      end
  | Some e =>
      Ok (Some e, Stream_Close_call (log LError "H265 ParseVpsSpsPps Error" vt2))
  end.

(** [header[0] = 0x1c; ...; header[4] = 0x00] on a slice of at least five
    bytes. *)
Definition set_header5 (header : Buffer) : Buffer :=
  [0x1c; 0; 0; 0; 0] ++ drop 5 header.

Definition WriteAVCC (ts : Z) (frame : BLL) (vt : H265)
  : Res (option error * BLL * H265) :=
  let l := ByteLength frame in
  if l <? 6 then
    Ok (Some ErrShortWrite, frame, log LError "AVCC data too short" vt)
  else
    let b0 := GetByte base frame 0 in
    let isExtHeader := Z.land (Z.shiftr b0 4) 8 in
    if negb (isExtHeader =? 0) then
      let packetType := Z.land b0 15 in
      if packetType =? PacketTypeSequenceStart codec then
        let header := ToBytes base frame in
        if (length header <? 5)%nat then Panic
        else match writeSequenceHead (set_header5 header) vt with
             | Ok (err, vt') => Ok (err, Recycle frame, vt')
             | Panic => Panic
             end
      else if packetType =? PacketTypeCodedFrames codec then
        match items frame with
        | [] => Panic
        | v :: rest =>
            if (length v <? 5)%nat then Panic
            else
              let v' := [Z.land (Z.land b0 0x7F) 0xFC; 0x01] ++ drop 5 v in
              Video_WriteAVCC base ts
                {| items := v' :: rest; ByteLength := ByteLength frame - 3 |} vt
        end
      else if packetType =? PacketTypeCodedFramesX codec then
        match items frame with
        | [] => Panic
        | v :: rest =>
            if (length v <? 5)%nat then Panic
            else
              let v' := [Z.land (Z.land b0 0x7F) 0xFC; 0x01; 0; 0; 0] ++ drop 5 v in
              Video_WriteAVCC base ts
                {| items := v' :: rest; ByteLength := ByteLength frame |} vt
        end
      else Ok (None, frame, vt)
    else
      if GetByte base frame 1 =? 0 then
        match writeSequenceHead (ToBytes base frame) vt with
        | Ok (err, vt') => Ok (err, Recycle frame, vt')
        | Panic => Panic
        end
      else Video_WriteAVCC base ts frame vt.












End WithCodec.

(** *** The vocabulary of the properties

    What follows is not part of h265.go: these definitions only serve to
    state what the code above does. *)

(** The constants of the codec package as HEVC numbers them, with a parser
    that reads no dimensions, a builder that strings the three sets
    together and a header parser that fails. *)
Definition hevc : Codec :=
  {| NAL_UNIT_CODED_SLICE_BLA := 16;
     NAL_UNIT_CODED_SLICE_BLANT := 17;
     NAL_UNIT_CODED_SLICE_BLA_N_LP := 18;
     NAL_UNIT_CODED_SLICE_IDR_N_LP := 20;
     NAL_UNIT_CODED_SLICE_CRA := 21;
     NAL_UNIT_SEI := 39;
     PacketTypeSequenceStart := 0;
     PacketTypeCodedFrames := 1;
     PacketTypeCodedFramesX := 3;
     ParseHevcSPS := fun _ => {| Width := 0; Height := 0 |};
     BuildH265SeqHeaderFromVpsSpsPps := fun vps sps pps => (vps ++ sps ++ pps, None);
     ParseVpsSpsPpsFromSeqHeaderWithoutMalloc :=
       fun _ => (None, None, None, Some (ErrOther 0)) |}.

(** A base track that accepts every frame as it is, over byte lists read
    across their buffers. *)
Definition flat_base (mtu : Z) : VideoBase :=
  {| RTPMTU := mtu;
     Video_WriteAVCC := fun _ frame vt => Ok (None, frame, vt);
     GetByte := fun frame i => nth (Z.to_nat i) (concat (items frame)) 0;
     ToBytes := fun frame => concat (items frame) |}.



Definition frame_split : BLL := {| items := [[0x91; 1; 2]; [3; 4; 5]]; ByteLength := 6 |}.
Definition frame_coded : BLL := {| items := [[0x91; 1; 2; 3; 4; 5; 6]]; ByteLength := 7 |}.
Definition frame_end : BLL := {| items := [[0x92; 1; 2; 3; 4; 5]]; ByteLength := 6 |}.















End H265.

(** * Properties *)

(** ** The stream *)

Module EngineProps.
Import Engine.

Lemma Next_spec_table (e : StateEvent) : Next e = spec_table (From e) (Action e).
Proof. destruct e as [a f t]; destruct f, a; reflexivity. Qed.

Ltac run_monad :=
  cbv beta iota zeta delta [action action_n action_body publish_stateEvent bind ret gets modify emits emit
       time_Now timeout_Reset timeout_Stop panic strm State Publisher SEHistory Subscribers Tracks
       IdleTimeout PublishTimeout DelayCloseTimeout Path actionChan timeout clock out pulseSuber
       set_State set_SEHistory set_timeout set_Tracks set_actionChan set_Subscribers add_out].

Lemma action_rejected (a : StreamAction) (w : World) :
  spec_table (State (strm w)) a = None ->
  action a w = Ok (false, add_out [Log LDebug "wrong action"] w).
Proof.
  destruct w as [r ps c o]. destruct r as [tm ch pt dt it pa pub st hist subs trs].
  intros H. run_monad. rewrite Next_spec_table. cbn [From Action]. 
  cbn [strm State] in H. rewrite H. reflexivity.
Qed.

#[local] Arguments Next : simpl never.

Ltac step :=
  match goal with
  | |- context [match ?x with _ => _ end] =>
      match type of x with
      | option _ => destruct x eqn:?
      | bool => destruct x eqn:?
      | sumbool _ _ => destruct x
      end
  end.

Lemma action_accepted (a : StreamAction) (w : World) (next : StreamState) :
  spec_table (State (strm w)) a = Some next ->
  exists w' evs,
    action a w = Ok (true, w') /\
    SEHistory (strm w') = SEHistory (strm w) ++ evs /\
    head evs = Some {| Action := a; From := State (strm w); Time := clock w |} /\
    follows_table (State (strm w)) evs = Some (State (strm w')).
Proof.
  destruct w as [r ps c o]. destruct r as [tm ch pt dt it pa pub st hist subs trs].
  cbn [strm State SEHistory clock].
  destruct st, a; cbn [spec_table]; intros H; try discriminate H; clear H.
  all: unfold action, action_n, action_body.
  all: unfold bind at 1; unfold gets at 1; cbn [strm State].
  all: unfold bind at 1; unfold time_Now at 1; cbn [clock].
  all: rewrite Next_spec_table; cbn [spec_table From Action].
  all: cbn.
  all: repeat (rewrite ?Next_spec_table; cbn [spec_table From Action]; step; cbn).
  all: try (eexists _, [_]; split; [reflexivity|]; cbn; split; [reflexivity|split;reflexivity]).
  all: try (eexists _, [_; _]; split; [reflexivity|]; cbn; rewrite <- ?app_assoc; split; [reflexivity|split;reflexivity]).
Qed.

#[local] Arguments action : simpl never.

Lemma quiet_resolves {A} (f : A -> nat) (l : list A) :
  quiet ((fun x => Resolve (f x)) <$> l).
Proof. induction l; constructor; auto. Qed.

Lemma action_closed (a : StreamAction) (w : World) :
  State (strm w) = STATE_CLOSED ->
  action a w = Ok (false, add_out [Log LDebug "wrong action"] w).
Proof. intros H. apply action_rejected. rewrite H. reflexivity. Qed.



Lemma IsClosed_iff (r : Stream) : IsClosed r = true <-> State r = STATE_CLOSED.
Proof. unfold IsClosed. apply bool_decide_eq_true. Qed.

#[local] Arguments IsClosed : simpl never.

Ltac closed_action :=
  unfold bind at 1;
  match goal with
  | |- context [action ?a ?w] =>
      rewrite (action_closed a w) by reflexivity; unfold add_out; cbn
  end.

Lemma dispatch_closed_publish v (w : World) :
  State (strm w) = STATE_CLOSED ->
  exists w', dispatch (ItPublish v) w = Ok (tt, w') /\ closed_step w w'.
Proof.
  destruct w as [r ps c o]. destruct r as [tm ch pt dt it' pa pub st hist subs trs].
  cbn [strm State]. intros ->. unfold closed_step, dispatch.
  unfold bind at 1, gets at 1. cbn [strm].
  rewrite (proj2 (IsClosed_iff _)) by reflexivity. cbn.
  destruct (same_publisher pub (Value v)); cbn; closed_action.
  all: eexists; split; [reflexivity|]; cbn; split; [reflexivity|split;[reflexivity|]].
  all: eexists; rewrite <- ?app_assoc; split; [reflexivity|]; repeat constructor.
Qed.

Lemma quiet_app (a b : list Effect) : quiet a -> quiet b -> quiet (a ++ b).
Proof. apply Forall_app_2. Qed.

Lemma quiet_Add sub w s : quiet (snd (Subscribers.Add sub w s)).
Proof. unfold Subscribers.Add. destruct (Subscribers.NeedWait w); repeat constructor. Qed.

Lemma quiet_OnTrack tr s : quiet (snd (Subscribers.OnTrack tr s)).
Proof. apply quiet_resolves. Qed.

Lemma quiet_AbortWait s : quiet (snd (Subscribers.AbortWait s)).
Proof. apply quiet_resolves. Qed.

Ltac finish_closed :=
  eexists; split; [reflexivity|]; cbn; split; [reflexivity|split; [reflexivity|]];
  eexists; rewrite <- ?app_assoc; split; [reflexivity|];
  repeat (apply quiet_app || apply quiet_Add || apply quiet_OnTrack
          || apply quiet_AbortWait || apply quiet_resolves
          || (constructor; [reflexivity|]) || constructor).

Lemma dispatch_closed_subscribe v (w : World) :
  State (strm w) = STATE_CLOSED ->
  exists w', dispatch (ItSubscribe v) w = Ok (tt, w') /\ closed_step w w'.
Proof.
  destruct w as [r ps c o]. destruct r as [tm ch pt dt it' pa pub st hist subs trs].
  cbn [strm State]. intros ->. unfold closed_step, dispatch.
  unfold bind at 1, gets at 1. cbn [strm].
  rewrite (proj2 (IsClosed_iff _)) by reflexivity. cbn.
  destruct pub as [p|]; cbn.
  all: rewrite andb_false_r; cbn.
  all: finish_closed.
Qed.


Ltac unfold_monad :=
  cbv beta delta [bind gets modify emits emit ret panic timeout_Reset timeout_Stop
                  set_pulseSuber Subscribers_AbortWait GetPublisherConfig onSuberClose];
  cbn.

(** [action_body] calls [self] only for LastLeave, on a stream that has
    just entered Publishing. *)
Lemma action_body_ext (f g : StreamAction -> M World bool) (a : StreamAction) (w : World) :
  (forall w', State (strm w') = STATE_PUBLISHING ->
              f ACTION_LASTLEAVE w' = g ACTION_LASTLEAVE w') ->
  action_body f a w = action_body g a w.
Proof.
  intros H. destruct w as [r ps c o].
  destruct r as [tm ch pt dt it pa pub st hist subs trs].
  unfold action_body. unfold_monad. rewrite Next_spec_table; cbn [From Action].
  destruct (spec_table st a) as [[| | |]|]; try reflexivity.
  cbn. destruct ((0 <? it) && (Subscribers.Len subs =? 0)); [|reflexivity].
  apply H. reflexivity.
Qed.

Lemma action_body_leave (f g : StreamAction -> M World bool) (w : World) :
  State (strm w) = STATE_PUBLISHING ->
  action_body f ACTION_LASTLEAVE w = action_body g ACTION_LASTLEAVE w.
Proof.
  destruct w as [r ps c o]. destruct r as [tm ch pt dt it pa pub st hist subs trs].
  cbn [strm State]. intros ->.
  unfold action_body. unfold_monad. rewrite Next_spec_table. reflexivity.
Qed.

(** The recursion of [action] is one call deep: a transition into
    Publishing may go on with LastLeave, which leads to WaitClose, where
    nothing follows.  So more fuel than 2 changes nothing. *)
Lemma action_depth (n : nat) (a : StreamAction) (w : World) :
  action_n (S (S n)) a w = action a w.
Proof.
  unfold action. cbn [action_n]. apply action_body_ext.
  intros w' Hw'. cbn [action_n]. apply action_body_leave. exact Hw'.
Qed.



(** C1: a stream starts in WaitPublish with an empty history; [Next] is the
    table of §4.5, which has no transition out of Closed; an action allowed
    from the current state returns true and appends to the history events
    that follow the table from the old state to the new one, the first for
    the action itself; an action that is not allowed returns false, leaves
    the stream (state, history, tracks, timer) as it was and emits only the
    debug log. *)
Theorem action_follows_table (a : StreamAction) (w : World) (path : string) (wait : Z) :
  State (newStream path wait) = STATE_WAITPUBLISH /\
  SEHistory (newStream path wait) = [] /\
  (forall e, Next e = spec_table (From e) (Action e)) /\
  (forall b, spec_table STATE_CLOSED b = None) /\
  match spec_table (State (strm w)) a with
  | Some next =>
      exists w' evs,
        action a w = Ok (true, w') /\
        SEHistory (strm w') = SEHistory (strm w) ++ evs /\
        head evs = Some {| Action := a; From := State (strm w); Time := clock w |} /\
        follows_table (State (strm w)) evs = Some (State (strm w'))
  | None =>
      exists w',
        action a w = Ok (false, w') /\
        strm w' = strm w /\
        out w' = out w ++ [Log LDebug "wrong action"]
  end.
Proof.
  split; [reflexivity|]. split; [reflexivity|].
  split; [exact Next_spec_table|]. split; [intros b; destruct b; reflexivity|].
  destruct (spec_table (State (strm w)) a) as [next|] eqn:E.
  - exact (action_accepted a w next E).
  - rewrite (action_rejected a w E). eexists. split; [reflexivity|]. split; reflexivity.
Qed.

(** C4, as amended: on a transition into Publishing the event is Republish
    exactly when the history, the new event included, is longer than 1 (so
    Publish exactly when the history was empty), and it is broadcast to the
    subscribers.  It also goes to the bus and to the publisher, unless the
    idle timeout is set and nobody is subscribed: then the stream moves on
    to WaitClose at once, and the bus and the publisher get the WaitClose
    event only. *)
Theorem enter_Publishing (a : StreamAction) (w : World) :
  spec_table (State (strm w)) a = Some STATE_PUBLISHING ->
  let r := strm w in
  let event := {| Action := a; From := State r; Time := clock w |} in
  let stateEvent := if 1 <? Z.of_nat (length (SEHistory r ++ [event]))
                    then SErepublish event else SEpublish event in
  let heard := Subscribers.Broadcast stateEvent (Subscribers r) in
  (stateEvent = SEpublish event <-> SEHistory r = []) /\
  (stateEvent = SErepublish event <-> SEHistory r <> []) /\
  exists w',
    action a w = Ok (true, w') /\
    if (0 <? IdleTimeout r) && (Subscribers.Len (Subscribers r) =? 0)
    then
      let leave := {| Action := ACTION_LASTLEAVE; From := STATE_PUBLISHING;
                      Time := clock w |} in
      State (strm w') = STATE_WAITCLOSE /\
      out w' = out w ++ [Log LInfo "state change"] ++ heard
                     ++ [Log LInfo "state change"; BusSend (SEwaitClose leave)]
                     ++ publisher_gets (Publisher r) (SEwaitClose leave)
    else
      State (strm w') = STATE_PUBLISHING /\
      timeout (strm w') = TimerReset (PublishTimeout r) /\
      out w' = out w ++ [Log LInfo "state change"] ++ heard
                     ++ [BusSend stateEvent] ++ publisher_gets (Publisher r) stateEvent.
Proof.
  destruct w as [r ps c o]. destruct r as [tm ch pt dt it pa pub st hist subs trs].
  cbn [strm State SEHistory clock IdleTimeout Subscribers Publisher PublishTimeout out].
  intros H. cbv zeta. rewrite length_app. cbn [length].
  split; [|split].
  1,2: destruct hist as [|e0 hist];
    [change (1 <? Z.of_nat (length (@nil StateEvent) + 1)) with false;
     split; intros; congruence|].
  1,2: assert (Hlt : (1 <? Z.of_nat (length (e0 :: hist) + 1)) = true)
         by (apply Z.ltb_lt; cbn [length]; lia).
  1,2: rewrite Hlt; split; intros; congruence.
  destruct st, a; cbn [spec_table] in H; try discriminate H; clear H.
  all: unfold action, action_n, action_body.
  all: unfold bind at 1; unfold gets at 1; cbn [strm State].
  all: unfold bind at 1; unfold time_Now at 1; cbn [clock].
  all: rewrite Next_spec_table; cbn [spec_table From Action].
  all: unfold_monad; rewrite length_app; cbn [length].
  all: destruct ((0 <? it) && (Subscribers.Len subs =? 0)) eqn:E; cbn.
  all: rewrite ?Next_spec_table; cbn [spec_table From Action]; cbn.
  all: repeat (step; cbn).
  all: eexists; (split; [reflexivity|]); cbn; rewrite <- ?app_assoc; cbn.
  all: repeat split; reflexivity.
Qed.

(** C5, as amended: on a transition into WaitPublish the timer is reset to
    the publisher's WaitCloseTimeout if a publisher is set and the value is
    nonzero, else to the WaitTimeout of the subscriber picked if there is
    one, else to 10 ms; the subscribers are notified of the publisher loss;
    and every track is marked offline when a publisher is set, whereas
    without a publisher the tracks stay as they are. *)
Theorem enter_WaitPublish (a : StreamAction) (w : World) :
  spec_table (State (strm w)) a = Some STATE_WAITPUBLISH ->
  let r := strm w in
  let event := {| Action := a; From := State r; Time := clock w |} in
  let pubWait := match Publisher r with
                 | Some p => WaitCloseTimeout (pub_Config p)
                 | None => 0
                 end in
  let waitTime := if pubWait =? 0
                  then match Subscribers.Pick (Subscribers r) with
                       | Some sub => WaitTimeout (sub_Config sub)
                       | None => Millisecond * 10
                       end
                  else pubWait in
  exists w' rest,
    action a w = Ok (true, w') /\
    State (strm w') = STATE_WAITPUBLISH /\
    timeout (strm w') = TimerReset waitTime /\
    Tracks (strm w') =
      match Publisher r with
      | Some _ => Tracks.Range (SetStuff TrackStateOffline) (Tracks r)
      | None => Tracks r
      end /\
    out w' = out w ++ [Log LInfo "state change"]
                   ++ Subscribers.OnPublisherLost event (Subscribers r) ++ rest.
Proof.
  destruct w as [r ps c o]. destruct r as [tm ch pt dt it pa pub st hist subs trs].
  cbn [strm State SEHistory clock IdleTimeout Subscribers Publisher PublishTimeout out Tracks].
  intros H. cbv zeta.
  destruct st, a; cbn [spec_table] in H; try discriminate H; clear H.
  unfold action, action_n, action_body.
  unfold bind at 1; unfold gets at 1; cbn [strm State].
  unfold bind at 1; unfold time_Now at 1; cbn [clock].
  rewrite Next_spec_table; cbn [spec_table From Action].
  unfold_monad.
  destruct pub as [p|]; cbn.
  all: destruct (Subscribers.Pick subs) as [sub|]; cbn.
  all: try destruct (WaitCloseTimeout (pub_Config p) =? 0); cbn.
  all: eexists _, _; (split; [reflexivity|]); cbn; rewrite <- ?app_assoc; cbn.
  all: repeat split; reflexivity.
Qed.


(** C3, at the defect: a PublishRequest handled on a closed stream has its
    promise rejected with ErrStreamIsClosed and then, since the handler goes
    on, settled a second time: resolved when the publisher is the stream's
    own, rejected with ErrBadStreamName otherwise. *)
Theorem closed_publish_settled_twice (v : Promise (option IPublisher)) (w : World) :
  State (strm w) = STATE_CLOSED ->
  exists w',
    dispatch (ItPublish v) w = Ok (tt, w') /\
    out w' = out w ++ [Reject (promise_id v) ErrStreamIsClosed;
                       Log LDebug "wrong action";
                       if same_publisher (Publisher (strm w)) (Value v)
                       then Resolve (promise_id v)
                       else Reject (promise_id v) ErrBadStreamName] /\
    settled (promise_id v) (drop (length (out w)) (out w')) = 2%nat.
Proof.
  destruct w as [r ps c o]. destruct r as [tm ch pt dt it' pa pub st hist subs trs].
  cbn [strm State Publisher out]. intros ->. unfold dispatch.
  unfold bind at 1, gets at 1. cbn [strm].
  rewrite (proj2 (IsClosed_iff _)) by reflexivity. cbn.
  destruct (same_publisher pub (Value v)); cbn; closed_action.
  all: eexists; split; [reflexivity|]; cbn; rewrite <- ?app_assoc; cbn.
  all: split; [reflexivity|]; rewrite drop_app_length.
  all: unfold settled; cbn; rewrite Nat.eqb_refl; reflexivity.
Qed.

Ltac run_here :=
  cbv zeta;
  lazymatch goal with
  | |- ex (fun w' => ?m = @?r w' /\ @?P w') =>
      let E := fresh "E" in
      destruct m as [[? ?]|] eqn:E; vm_compute in E;
      [injection E as <- <-; eexists; split; [reflexivity|] | discriminate E]
  end.

Lemma enter_Publishing_counterexample :
  spec_table (State idle_stream) ACTION_PUBLISH = Some STATE_PUBLISHING /\
  let leave := {| Action := ACTION_LASTLEAVE; From := STATE_PUBLISHING; Time := 0 |} in
  exists w',
    action ACTION_PUBLISH (world_of idle_stream) = Ok (true, w') /\
    SEHistory (strm w') =
      [{| Action := ACTION_PUBLISH; From := STATE_WAITPUBLISH; Time := 0 |}; leave] /\
    out w' = [Log LInfo "state change"; Log LInfo "state change";
              BusSend (SEwaitClose leave);
              PublisherOnEvent 1 (SEwaitClose leave)].
Proof.
  split; [reflexivity|]. run_here. split; reflexivity.
Qed.

Lemma enter_Publishing_witness :
  exists w',
    action ACTION_PUBLISH (world_of fresh) = Ok (true, w') /\
    State (strm w') = STATE_PUBLISHING /\
    out w' = [Log LInfo "state change";
              BusSend (SEpublish {| Action := ACTION_PUBLISH; From := STATE_WAITPUBLISH;
                                    Time := 0 |})].
Proof.
  destruct (enter_Publishing ACTION_PUBLISH (world_of fresh) eq_refl)
    as (_ & _ & w' & Hrun & Hs & _ & Ho).
  exists w'. split; [exact Hrun|]. split; [exact Hs|exact Ho].
Defined.

Lemma enter_WaitPublish_counterexample :
  stuff video1 = TrackStateOnline /\
  exists w',
    action ACTION_PUBLISHLOST (world_of lost_stream) = Ok (true, w') /\
    State (strm w') = STATE_WAITPUBLISH /\
    Tracks.Map (Tracks (strm w')) = {[ "v" := video1 ]}.
Proof.
  split; [reflexivity|]. run_here. split; reflexivity.
Qed.

Lemma enter_WaitPublish_witness :
  exists w',
    action ACTION_PUBLISHLOST (world_of lost_stream) = Ok (true, w') /\
    timeout (strm w') = TimerReset (Millisecond * 10).
Proof.
  destruct (enter_WaitPublish ACTION_PUBLISHLOST (world_of lost_stream) eq_refl)
    as (w' & rest & Hrun & _ & Ht & _).
  exists w'. split; [exact Hrun|exact Ht].
Defined.



Lemma closed_publish_settled_twice_witness :
  exists w',
    dispatch (ItPublish other_publisher) (world_of closed_stream) = Ok (tt, w') /\
    out w' = [Reject 9 ErrStreamIsClosed; Log LDebug "wrong action";
              Reject 9 ErrBadStreamName].
Proof.
  destruct (closed_publish_settled_twice other_publisher (world_of closed_stream) eq_refl)
    as (w' & Hrun & Ho & _).
  exists w'. split; [exact Hrun|exact Ho].
Defined.

End EngineProps.

(** ** The H.265 track *)

Module H265Props.
Import H265.

Lemma hevc_ok : codec_ok hevc.
Proof. split; apply (bool_decide_unpack _); vm_compute; exact I. Qed.

Section AVCC.
Context (codec : Codec) (base : VideoBase).



(** C9, as amended: for a frame of 6 bytes or more whose first buffer
    ([frame.Next.Value]) holds at least 5 bytes, with the extended-header
    bit set and packet type CodedFrames, that buffer's first two bytes
    become (b0 & 0x7F & 0xFC) and 0x01, its bytes from offset 5 on move
    down to offset 2, buffer and frame get 3 bytes shorter, and the result
    goes to the base track's writer. *)
Theorem WriteAVCC_CodedFrames ts frame vt v rest :
  codec_ok codec ->
  6 <= ByteLength frame ->
  items frame = v :: rest ->
  (5 <= length v)%nat ->
  let b0 := GetByte base frame 0 in
  Z.land (Z.shiftr b0 4) 8 <> 0 ->
  Z.land b0 15 = PacketTypeCodedFrames codec ->
  let v' := [Z.land (Z.land b0 0x7F) 0xFC; 0x01] ++ drop 5 v in
  WriteAVCC codec base ts frame vt
  = Video_WriteAVCC base ts
      {| items := v' :: rest; ByteLength := ByteLength frame - 3 |} vt
  /\ v' !! 0%nat = Some (Z.land (Z.land b0 0x7F) 0xFC)
  /\ v' !! 1%nat = Some 0x01
  /\ (forall i : nat, v' !! (2 + i)%nat = v !! (5 + i)%nat)
  /\ length v' = (length v - 3)%nat.
Proof.
  intros [_ Hpt] Hlen Hitems Hv b0 Hext Htype v'.
  split; [|repeat split].
  - unfold WriteAVCC. fold b0.
    destruct (ByteLength frame <? 6) eqn:E; [apply Z.ltb_lt in E; lia|].
    destruct (Z.land (Z.shiftr b0 4) 8 =? 0) eqn:E1; [apply Z.eqb_eq in E1; contradiction|].
    cbn [negb]. rewrite Htype.
    destruct (PacketTypeCodedFrames codec =? PacketTypeSequenceStart codec) eqn:E2.
    { apply Z.eqb_eq in E2. unfold packet_types in Hpt.
      rewrite E2 in Hpt. apply NoDup_cons_1_1 in Hpt. set_solver. }
    rewrite Z.eqb_refl, Hitems.
    destruct (length v <? 5)%nat eqn:E3; [apply Nat.ltb_lt in E3; lia|].
    reflexivity.
  - intros i. unfold v'. cbn. apply lookup_drop.
  - unfold v'. cbn. rewrite length_drop. lia.
Qed.

(** C10: for a frame of 6 bytes or more (the input §4.4 speaks of) with the
    extended-header bit set and a packet type that is none of
    SequenceStart, CodedFrames and CodedFramesX, the call returns nil and
    leaves frame and track as they were. *)
Theorem WriteAVCC_other_packet_type ts frame vt :
  6 <= ByteLength frame ->
  let b0 := GetByte base frame 0 in
  Z.land (Z.shiftr b0 4) 8 <> 0 ->
  Z.land b0 15 ∉ packet_types codec ->
  WriteAVCC codec base ts frame vt = Ok (None, frame, vt).
Proof.
  intros Hlen b0 Hext Htype. unfold WriteAVCC. fold b0.
  destruct (ByteLength frame <? 6) eqn:E; [apply Z.ltb_lt in E; lia|].
  destruct (Z.land (Z.shiftr b0 4) 8 =? 0) eqn:E1; [apply Z.eqb_eq in E1; contradiction|].
  cbn [negb]. unfold packet_types in Htype.
  repeat match goal with
  | |- context [?a =? ?b] =>
      let E := fresh in destruct (a =? b) eqn:E; [apply Z.eqb_eq in E; set_solver|]
  end.
  reflexivity.
Qed.

End AVCC.




Lemma WriteAVCC_CodedFrames_counterexample :
  ByteLength frame_split = 6 /\
  Z.land (Z.shiftr (GetByte (flat_base 1400) frame_split 0) 4) 8 = 8 /\
  Z.land (GetByte (flat_base 1400) frame_split 0) 15 = PacketTypeCodedFrames hevc /\
  WriteAVCC hevc (flat_base 1400) 0 frame_split NewH265 = Panic.
Proof. repeat split; reflexivity. Qed.

Lemma WriteAVCC_CodedFrames_witness :
  WriteAVCC hevc (flat_base 1400) 0 frame_coded NewH265
  = Ok (None, {| items := [[0x10; 1; 5; 6]]; ByteLength := 4 |}, NewH265).
Proof.
  refine (proj1 (WriteAVCC_CodedFrames hevc (flat_base 1400) 0 frame_coded NewH265
             [0x91; 1; 2; 3; 4; 5; 6] [] hevc_ok _ eq_refl _ _ eq_refl)).
  - vm_compute; discriminate.
  - cbn; lia.
  - vm_compute; discriminate.
Defined.

Lemma WriteAVCC_other_packet_type_witness :
  WriteAVCC hevc (flat_base 1400) 0 frame_end NewH265 = Ok (None, frame_end, NewH265).
Proof.
  apply (WriteAVCC_other_packet_type hevc (flat_base 1400) 0 frame_end NewH265).
  - vm_compute; discriminate.
  - vm_compute; discriminate.
  - apply (bool_decide_unpack _); vm_compute; exact I.
Defined.

Section Slices.
Context (codec : Codec).

Lemma switch_types_distinct :
  codec_ok codec ->
  forall i j x y, switch_types codec !! i = Some x -> switch_types codec !! j = Some y ->
                  i <> j -> x <> y.
Proof.
  intros [Hnd _] i j x y Hi Hj Hij ->. apply Hij. eapply NoDup_lookup; eauto.
Qed.

Ltac distinct Hok i j :=
  let H := fresh "Hne" in
  pose proof (switch_types_distinct Hok i j _ _ eq_refl eq_refl ltac:(lia)) as H.




Section Ok.
Hypothesis Hok : codec_ok codec.










End Ok.



End Slices.

Section Policy.
Context (codec : Codec).


End Policy.



Section FU.
Context (codec : Codec) (base : VideoBase).



















End FU.


End H265Props.
